(** * Cloud-Care wearables gateway: the bootstrap script [backend/wearables/main.py]

    A shallow embedding of the thirty-line start-up script of the gateway:
    the process environment is a finite map from names to strings, the
    statements of the module are computations in a small state-and-exception
    monad, and the Flask application object is a record holding the URL map
    and the after-request hooks.

    What the script only calls is kept apart from what it defines:
    - [int(str)] of the Python runtime, [sentry_sdk.init] and what Flask's
      [app.run] does with its arguments are Section variables, so every
      statement holds for whatever they do;
    - [load_dotenv], [CORS] and [apiVersions.v2.init_app] are not defined in
      [main.py]; they are modelled from the specification and marked so. *)

From stdpp Require Import gmap strings list fin_maps.
From Stdlib Require Import ZArith QArith Ascii.

Local Open Scope Z_scope.
Local Open Scope string_scope.

(** ** Python values and built-ins *)

Module Py.

(** The values that reach [int(...)] and [bool(...)] in the script: an
    environment string, or the default handed to [os.environ.get]. *)
Inductive value : Type :=
| VStr (s : string)
| VInt (z : Z)
| VBool (b : bool).

(** The exceptions the script can meet.  [ValueError] carries the literal
    that [int] rejected; [Other] stands for any exception class raised by
    a library (bad DSN, transport errors, [KeyboardInterrupt], ...). *)
Inductive exn : Type :=
| KeyError (key : string)
| ValueError (literal : string)
| Other (class_name : string).

(** [bool(v)]: truthiness. A string is true exactly when it is not empty. *)
Definition bool_ (v : value) : bool :=
  match v with
  | VStr s => negb (String.eqb s "")
  | VInt z => negb (Z.eqb z 0)
  | VBool b => b
  end.

(** [mapping.get(key, default)] on [os.environ]: the stored string when
    the key is set, the default object (of whatever type) otherwise. *)
Definition environ_get (env : gmap string string) (key : string) (default : value) : value :=
  match env !! key with
  | Some s => VStr s
  | None => default
  end.

(** [mapping[key]] on [os.environ]: raises [KeyError] when unset. *)
Definition environ_getitem (env : gmap string string) (key : string) : exn + string :=
  match env !! key with
  | Some s => inr s
  | None => inl (KeyError key)
  end.

(** *** A concrete reading of [int(str)] for ASCII input

    Base ten, surrounding white space stripped, one optional sign, decimal
    digits with single underscores allowed between digits.  Digits outside
    ASCII and the interpreter's limit on the length of a literal are left
    out.  It is used to run the model on examples; the theorems below are
    stated for an arbitrary parser. *)

Definition is_space (c : Ascii.ascii) : bool :=
  let n := Ascii.nat_of_ascii c in
  (Nat.eqb n 32 || (Nat.leb 9 n && Nat.leb n 13))%bool.

Definition digit_of (c : Ascii.ascii) : option Z :=
  let n := Ascii.nat_of_ascii c in
  if (Nat.leb 48 n && Nat.leb n 57)%bool then Some (Z.of_nat (n - 48)) else None.

Fixpoint lstrip (s : string) : string :=
  match s with
  | String c rest => if is_space c then lstrip rest else s
  | EmptyString => EmptyString
  end.

Definition strip (s : string) : string :=
  String.rev (lstrip (String.rev (lstrip s))).

(** [digits acc prev_digit s]: reads the digit run [s]; [prev_digit] tells
    whether the previous character was a digit, which is what an
    underscore needs on its left and the end of the string on its left. *)
Fixpoint digits (acc : Z) (prev_digit : bool) (s : string) : option Z :=
  match s with
  | EmptyString => if prev_digit then Some acc else None
  | String c rest =>
      match digit_of c with
      | Some d => digits (10 * acc + d) true rest
      | None =>
          if (Ascii.eqb c "_"%char && prev_digit)%bool
          then digits acc false rest
          else None
      end
  end.

Definition int_of_ascii (s : string) : option Z :=
  match strip s with
  | String "-"%char rest => Z.opp <$> digits 0 false rest
  | String "+"%char rest => digits 0 false rest
  | body => digits 0 false body
  end.

End Py.

Export Py(value(..), exn(..)).

(** ** The process state and the monad of module-level statements *)

(** Keyword arguments of one call of [sentry_sdk.init]. The script passes the
    literal [1.0] as sampling rate; it is kept as the rational one. *)
Record SentryOptions : Type := {
  dsn : string;
  traces_sample_rate : Q;
}.

(** Arguments of [app.run(host=..., port=..., debug=...)]. *)
Record RunArgs : Type := {
  run_host : value;
  run_port : Z;
  run_debug : bool;
}.

(** What the script reads and writes outside its own variables.
    - [environ]: [os.environ];
    - [dotenv_file]: the key/value pairs of the local [.env] file, [None]
      when there is no such file;
    - [sentry_calls]: every call of [sentry_sdk.init] made so far, oldest
      first, with its arguments;
    - [sentry_client]: the options of the installed telemetry client, [None]
      while none is installed;
    - [serving]: the arguments the development server was started with,
      [None] while [app.run] has not been entered. *)
Record World : Type := {
  environ : gmap string string;
  dotenv_file : option (gmap string string);
  sentry_calls : list SentryOptions;
  sentry_client : option SentryOptions;
  serving : option RunArgs;
}.

Definition set_environ (env : gmap string string) (w : World) : World :=
  {| environ := env; dotenv_file := dotenv_file w;
     sentry_calls := sentry_calls w; sentry_client := sentry_client w;
     serving := serving w |}.

Definition log_sentry_call (opts : SentryOptions) (w : World) : World :=
  {| environ := environ w; dotenv_file := dotenv_file w;
     sentry_calls := sentry_calls w ++ [opts]; sentry_client := sentry_client w;
     serving := serving w |}.

Definition install_sentry_client (opts : SentryOptions) (w : World) : World :=
  {| environ := environ w; dotenv_file := dotenv_file w;
     sentry_calls := sentry_calls w; sentry_client := Some opts;
     serving := serving w |}.

Definition start_serving (args : RunArgs) (w : World) : World :=
  {| environ := environ w; dotenv_file := dotenv_file w;
     sentry_calls := sentry_calls w; sentry_client := sentry_client w;
     serving := Some args |}.

(** A statement either completes with a value or raises; in both cases the
    effects performed up to that point stay in the world. *)
Inductive outcome (A : Type) : Type :=
| Returned (a : A) (w : World)
| Raised (e : exn) (w : World).
Arguments Returned {A} a w.
Arguments Raised {A} e w.

Definition Run (A : Type) : Type := World → outcome A.

#[global] Instance run_ret : MRet Run := λ A a w, Returned a w.

#[global] Instance run_bind : MBind Run := λ A B k m w,
  match m w with
  | Returned a w' => k a w'
  | Raised e w' => Raised e w'
  end.

Definition raise {A : Type} (e : exn) : Run A := λ w, Raised e w.

Definition lift_result {A : Type} (r : exn + A) : Run A :=
  match r with
  | inr a => mret a
  | inl e => raise e
  end.

(** [try: body / except: handler]. A bare [except:] gets every exception. *)
Definition try_except (body : Run unit) (handler : exn → Run unit) : Run unit := λ w,
  match body w with
  | Returned a w' => Returned a w'
  | Raised e w' => handler e w'
  end.

(** The statement [pass]. *)
Definition pass : Run unit := mret tt.

(** Modelled from the spec: [dotenv.load_dotenv], which [main.py] imports and
    calls without arguments.  Section 4.1: the loader merges the values of a
    local [.env]-style file into the process environment when the file is
    present, "load file into environment, do not override existing", and
    "no error is raised if the file is absent".  The union of finite maps is
    left-biased: a name bound on both sides keeps the environment's value. *)
Definition load_dotenv : Run bool := λ w,
  match dotenv_file w with
  | Some file => Returned true (set_environ (environ w ∪ file) w)
  | None => Returned false w
  end.

(** ** The web application object *)

Inductive Method : Type := GET | HEAD | OPTIONS | POST | PUT | PATCH | DELETE.

#[global] Instance Method_eq_dec : EqDecision Method.
Proof. solve_decision. Defined.

Record Request : Type := {
  method : Method;
  path : string;
}.

(** The JSON-like objects a view may return; a Python [dict] literal keeps
    its keys in the order written. *)
Unset Elimination Schemes.
Inductive Json : Type :=
| JStr (s : string)
| JList (items : list Json)
| JDict (fields : list (string * Json)).
Set Elimination Schemes.

(** What a response carries: a JSON document, plain text, the HTML page
    that werkzeug renders for an HTTP error (it shows the code and the
    reason; the rest of its text is not modelled), or the page a server
    shows for an exception that left the application. *)
Inductive Body : Type :=
| BJson (j : Json)
| BText (s : string)
| BErrorPage (code : Z) (reason : string)
| BTraceback (e : exn).

Record Response : Type := {
  status : Z;
  headers : list (string * string);
  body : Body;
}.

Definition add_header (name val : string) (resp : Response) : Response :=
  {| status := status resp; headers := (name, val) :: headers resp; body := body resp |}.

Inductive ApiVersion : Type := V1 | V2.

(** Names of view functions: Flask's own static-file view, the [root]
    function of the script, and the views a version module registers. *)
Inductive Endpoint : Type :=
| EpStatic
| EpRoot
| EpVersion (v : ApiVersion) (name : string).

Definition View : Type := Request → Run Response.

(** One entry of the URL map. [rule_matches] decides whether a request path
    fits the rule's pattern (converters included). *)
Record Rule : Type := {
  rule_matches : string → bool;
  rule_methods : list Method;
  rule_automatic_options : bool;
  rule_endpoint : Endpoint;
  rule_view : View;
}.

Record App : Type := {
  import_name : string;
  url_map : list Rule;
  after_request_funcs : list (Response → Response);
}.

(** [strip_prefix pre s] is [Some rest] when [s = pre ++ rest]. *)
Fixpoint strip_prefix (pre s : string) : option string :=
  match pre, s with
  | EmptyString, _ => Some s
  | String a pre', String b s' => if Ascii.eqb a b then strip_prefix pre' s' else None
  | String _ _, EmptyString => None
  end.

Definition add_url_rule (r : Rule) (app : App) : App :=
  {| import_name := import_name app;
     url_map := url_map app ++ [r];
     after_request_funcs := after_request_funcs app |}.

Definition after_request (f : Response → Response) (app : App) : App :=
  {| import_name := import_name app;
     url_map := url_map app;
     after_request_funcs := after_request_funcs app ++ [f] |}.

(** What Flask makes of a view's [(dict, status)] return value. *)
Definition make_response (rv : Json * Z) : Response :=
  {| status := rv.2; headers := [("Content-Type", "application/json")]; body := BJson rv.1 |}.

Definition http_error (code : Z) (reason : string) : Response :=
  {| status := code;
     headers := [("Content-Type", "text/html; charset=utf-8")];
     body := BErrorPage code reason |}.

(** The answer a client gets when the application lets an exception
    through to the server (the debugger page of the development server): it
    is made outside the application, so the after-request functions of the
    application never see it. *)
Definition server_error_response (e : exn) : Response :=
  {| status := 500;
     headers := [("Content-Type", "text/html; charset=utf-8")];
     body := BTraceback e |}.

Definition default_options_response : Response :=
  {| status := 200; headers := [("Content-Type", "text/html; charset=utf-8")]; body := BText "" |}.

(** Result of looking a request up in the URL map: the first rule whose
    pattern and methods both fit; 405 when only patterns fit; 404 when no
    pattern fits. *)
Inductive Routing : Type :=
| NotFound
| MethodNotAllowed
| Matched (r : Rule).

Definition rule_accepts (req : Request) (r : Rule) : bool :=
  rule_matches r (path req) && bool_decide (method req ∈ rule_methods r).

Definition url_match (rules : list Rule) (req : Request) : Routing :=
  match find (rule_accepts req) rules with
  | Some r => Matched r
  | None =>
      if existsb (λ r, rule_matches r (path req)) rules
      then MethodNotAllowed
      else NotFound
  end.

Definition dispatch_request (app : App) (req : Request) : Run Response :=
  match url_match (url_map app) req with
  | NotFound => mret (http_error 404 "Not Found")
  | MethodNotAllowed => mret (http_error 405 "Method Not Allowed")
  | Matched r =>
      if rule_automatic_options r && bool_decide (method req = OPTIONS)
      then mret default_options_response
      else rule_view r req
  end.

(** The after-request functions run on every response, the last registered
    first. *)
Definition process_response (app : App) (resp : Response) : Response :=
  fold_left (λ r f, f r) (rev (after_request_funcs app)) resp.

(** Modelled from the spec: [flask_cors.CORS], which [main.py] imports and
    applies to the application with no options.  Section 4.4: it "intercepts
    every outbound response from the Application Core and adds headers
    permitting cross-origin requests from any origin (default permissive
    policy)", the header being [Access-Control-Allow-Origin: *]. *)
Definition cors_after_request (resp : Response) : Response :=
  add_header "Access-Control-Allow-Origin" "*" resp.

Definition CORS (app : App) : App := after_request cors_after_request app.

(** A route as a version module declares it: a pattern on the part of the
    path below the version prefix, the methods, and the view. *)
Record VersionRoute : Type := {
  vr_name : string;
  vr_matches : string → bool;
  vr_methods : list Method;
  vr_automatic_options : bool;
  vr_view : View;
}.

Definition version_prefix (v : ApiVersion) : string :=
  match v with
  | V1 => "/api/v1/"
  | V2 => "/api/v2/"
  end.

Definition mount (v : ApiVersion) (vr : VersionRoute) : Rule :=
  {| rule_matches := λ p,
       match strip_prefix (version_prefix v) p with
       | Some rest => vr_matches vr rest
       | None => false
       end;
     rule_methods := vr_methods vr;
     rule_automatic_options := vr_automatic_options vr;
     rule_endpoint := EpVersion v (vr_name vr);
     rule_view := vr_view vr |}.

(** Modelled from the spec: [apiVersions.<version>.init_app], code of this
    repository that is not part of [main.py].  Sections 2 and 6: a version
    module "accepts an application object and mutates it by adding routes",
    and the routes of version [v2] are the paths [/api/v2/...].  The module
    adds its routes after those already present and touches nothing else. *)
Definition init_app (v : ApiVersion) (routes : list VersionRoute) (app : App) : App :=
  {| import_name := import_name app;
     url_map := url_map app ++ map (mount v) routes;
     after_request_funcs := after_request_funcs app |}.

(** ** Sample inputs

    Concrete collaborators and worlds on which the model is run. *)

Module Sample.

(** A process that has just started: nothing recorded, nothing served. *)
Definition world (env : gmap string string) (file : option (gmap string string)) : World :=
  {| environ := env; dotenv_file := file;
     sentry_calls := []; sentry_client := None; serving := None |}.

(** A telemetry SDK that rejects every DSN not starting with [https://]. *)
Definition sentry_sdk_init (opts : SentryOptions) (env : gmap string string) : option exn :=
  match strip_prefix "https://" (dsn opts) with
  | Some _ => None
  | None => Some (Other "BadDsn")
  end.

(** A development server on a machine where every host resolves and every
    port is free: it refuses only a port outside 0..65535. *)
Definition flask_run (args : RunArgs) (env : gmap string string) : option exn :=
  if ((0 <=? run_port args)%Z && (run_port args <=? 65535)%Z)%bool
  then None
  else Some (Other "OverflowError").

(** A Flask whose debug flag is off unless [app.run] turns it on. *)
Definition flask_default_debug (env : gmap string string) : bool := false.

(** An empty static folder. *)
Definition send_static_file : View := λ _, mret (http_error 404 "Not Found").

(** A view with a defect: it raises on every request. *)
Definition broken : View := λ _, raise (Other "ZeroDivisionError").

Definition heart_rate : View := λ _,
  mret (make_response (JDict [("bpm", JStr "72")], 200)).

Definition legacy : View := λ _,
  mret (make_response (JDict [("legacy", JStr "yes")], 200)).

Definition v2_routes : list VersionRoute :=
  [ {| vr_name := "heart_rate";
       vr_matches := String.eqb "heart-rate";
       vr_methods := [GET; HEAD; OPTIONS];
       vr_automatic_options := true;
       vr_view := heart_rate |};
    {| vr_name := "broken";
       vr_matches := String.eqb "broken";
       vr_methods := [GET; HEAD; OPTIONS];
       vr_automatic_options := true;
       vr_view := broken |} ].

Definition v1_routes : list VersionRoute :=
  [ {| vr_name := "legacy";
       vr_matches := String.eqb "legacy";
       vr_methods := [GET; HEAD; OPTIONS];
       vr_automatic_options := true;
       vr_view := legacy |} ].

Definition no_app : App :=
  {| import_name := ""; url_map := []; after_request_funcs := [] |}.

Definition good_dsn : string := "https://key@telemetry.example/7".

Definition bare : World := world ∅ None.
Definition with_dsn : World := world {[ "SENTRY_DSN" := good_dsn ]} None.
Definition with_bad_dsn : World := world {[ "SENTRY_DSN" := "not a dsn" ]} None.
Definition debug_empty : World := world {[ "APP_DEBUG" := "" ]} None.
Definition debug_false : World := world {[ "APP_DEBUG" := "false" ]} None.
Definition debug_zero : World := world {[ "APP_DEBUG" := "0" ]} None.
Definition port_http : World := world {[ "APP_PORT" := "http" ]} None.
Definition port_empty : World := world {[ "APP_PORT" := "" ]} None.
Definition port_9000 : World := world {[ "APP_PORT" := "9000" ]} None.
Definition port_9000_with_file : World :=
  world {[ "APP_PORT" := "9000" ]}
        (Some {[ "APP_PORT" := "1"; "APP_HOST" := "127.0.0.1" ]}).
Definition port_8080_debug_in_file : World :=
  world {[ "APP_PORT" := "8080" ]} (Some {[ "APP_DEBUG" := "1" ]}).
Definition port_minus_one : World := world {[ "APP_PORT" := "-1" ]} None.
Definition debug_one : World := world {[ "APP_DEBUG" := "1" ]} None.
Definition serving_with_debug (debug : bool) : World :=
  start_serving {| run_host := VStr "0.0.0.0"; run_port := 6644; run_debug := debug |} bare.
Definition port_file : gmap string string := {[ "APP_PORT" := "7000" ]}.
Definition port_in_file_only : World := world ∅ (Some port_file).

End Sample.

(** ** The script *)

Section Main.

(** [int(s)] of the Python runtime on a string: the integer read, [None]
    where Python raises [ValueError]. *)
Variable int_of_str : string → option Z.

(** [sentry_sdk.init(...)] of the Sentry SDK, seen from the caller:
    [None] when the call returns, [Some e] when it raises [e]. The answer
    may depend on the options and on the environment. *)
Variable sentry_sdk_init : SentryOptions → gmap string string → option exn.

(** [app.run(host, port, debug)] of Flask once it is entered, seen from
    the caller: [None] when the server binds and serves, [Some e] when the
    call raises [e] (a host that cannot be resolved, a port outside
    0..65535, an address already in use, ...). *)
Variable flask_run : RunArgs → gmap string string → option exn.

(** The debug flag Flask gives an application that [app.run] has not
    configured; Flask derives it from the environment. *)
Variable flask_default_debug : gmap string string → bool.

(** Flask's built-in view behind [/static/<path:filename>]. *)
Variable send_static_file : View.

(** The routes that [apiVersions.v2] declares. *)
Variable v2_routes : list VersionRoute.

(** [int(v)]. *)
Definition int_ (v : value) : Run Z :=
  match v with
  | VStr s =>
      match int_of_str s with
      | Some z => mret z
      | None => raise (ValueError s)
      end
  | VInt z => mret z
  | VBool b => mret (if b then 1 else 0)
  end.

(** [os.environ[key]] and [os.environ.get(key, default)] as statements. *)
Definition os_environ_getitem (key : string) : Run string := λ w,
  lift_result (Py.environ_getitem (environ w) key) w.

Definition os_environ_get (key : string) (default : value) : Run value := λ w,
  Returned (Py.environ_get (environ w) key default) w.

(** The call [sentry_sdk.init(dsn=..., traces_sample_rate=...)]: it is
    recorded, then either installs the client or raises. *)
Definition sentry_init_call (opts : SentryOptions) : Run unit := λ w,
  let w1 := log_sentry_call opts w in
  match sentry_sdk_init opts (environ w) with
  | None => Returned tt (install_sentry_client opts w1)
  | Some e => Raised e w1
  end.

(** Lines 9-12, the body of the [try]. The keyword arguments are evaluated
    before the call, so a missing key raises before [init] is entered. *)
Definition telemetry_body : Run unit :=
  d ← os_environ_getitem "SENTRY_DSN";
  sentry_init_call {| dsn := d; traces_sample_rate := 1 |}.

(** Lines 8-13: [try: ... except: pass]. *)
Definition telemetry : Run unit :=
  try_except telemetry_body (λ _, pass).

(** [Flask(import_name)]: a fresh application whose URL map holds the
    static-file rule and which has no after-request function yet. *)
Definition Flask (name : string) : App :=
  {| import_name := name;
     url_map :=
       [ {| rule_matches := λ p,
              match strip_prefix "/static/" p with
              | Some rest => negb (String.eqb rest "")
              | None => false
              end;
            rule_methods := [GET; HEAD; OPTIONS];
            rule_automatic_options := true;
            rule_endpoint := EpStatic;
            rule_view := send_static_file |} ];
     after_request_funcs := [] |}.

(** Lines 20-21: the view function of [/]. *)
Definition root : Run (Json * Z) :=
  mret (JDict [("service", JStr "wearables-gateway");
               ("version", JStr "v2");
               ("endpoints", JList [JStr "/api/v2/"])],
        200).

(** Line 19: [@app.route('/')] with the default methods. *)
Definition route_root (app : App) : App :=
  add_url_rule
    {| rule_matches := String.eqb "/";
       rule_methods := [GET; HEAD; OPTIONS];
       rule_automatic_options := true;
       rule_endpoint := EpRoot;
       rule_view := λ _, rv ← root; mret (make_response rv) |}
    app.

(** Lines 27-28. The two lines that would mount [v1] are comments. *)
Definition init_v2 (app : App) : App := init_app V2 v2_routes app.

(** Lines 15-28: the application as the module leaves it. *)
Definition create_app (name : string) : App :=
  init_v2 (route_root (CORS (Flask name))).

(** [app.run(host, port, debug)]: the call is entered with these
    arguments, which the world records; it then serves, or raises what
    Flask raises for them. *)
Definition app_run (app : App) (host : value) (port : Z) (debug : bool) : Run unit := λ w,
  let args := {| run_host := host; run_port := port; run_debug := debug |} in
  match flask_run args (environ w) with
  | None => Returned tt (start_serving args w)
  | Some e => Raised e (start_serving args w)
  end.

(** Whether the application re-raises the exception of a view instead of
    answering 500: Flask does so when its debug flag is on, and [app.run]
    sets that flag from its [debug] argument. *)
Definition propagate_exceptions (w : World) : bool :=
  match serving w with
  | Some args => run_debug args
  | None => flask_default_debug (environ w)
  end.

(** One request through the application, as the client sees it. Every
    response the application makes goes through [process_response]: the
    answer of a view, a 404, a 405, the automatic [OPTIONS] answer, and the
    500 made for a view that raised. With exceptions propagated the
    exception of a view leaves the application and the server answers. *)
Definition full_dispatch_request (app : App) (req : Request) (w : World) : Response * World :=
  match dispatch_request app req w with
  | Returned resp w' => (process_response app resp, w')
  | Raised e w' =>
      if propagate_exceptions w
      then (server_error_response e, w')
      else (process_response app (http_error 500 "Internal Server Error"), w')
  end.

(** Line 31, arguments evaluated left to right. *)
Definition listen (app : App) : Run unit :=
  host ← os_environ_get "APP_HOST" (VStr "0.0.0.0");
  p ← os_environ_get "APP_PORT" (VInt 6644);
  port ← int_ p;
  d ← os_environ_get "APP_DEBUG" (VBool false);
  app_run app host port (Py.bool_ d).

(** Lines 1-28: everything up to and including the construction of the
    application. *)
Definition bootstrap (name : string) : Run App :=
  _ ← load_dotenv;
  telemetry;;
  mret (create_app name).

(** The whole module, run under the module name [name]; line 30 guards the
    listener. *)
Definition main (name : string) : Run App :=
  app ← bootstrap name;
  (if String.eqb name "__main__" then listen app else pass);;
  mret app.

(** ** Properties of the script *)

(** Unfolds the monad so that a statement applied to a world computes. *)
Ltac run_unfold :=
  unfold mbind, run_bind, mret, run_ret, raise, pass, lift_result.

Lemma environ_get_unset (env : gmap string string) (key : string) (default : value) :
  env !! key = None → Py.environ_get env key default = default.
Proof. intros H. unfold Py.environ_get. by rewrite H. Qed.

Lemma environ_get_set (env : gmap string string) (key : string) (default : value) (s : string) :
  env !! key = Some s → Py.environ_get env key default = VStr s.
Proof. intros H. unfold Py.environ_get. by rewrite H. Qed.

Lemma int_keeps_world (v : value) (w : World) :
  (∃ z, int_ v w = Returned z w) ∨ (∃ e, int_ v w = Raised e w).
Proof.
  destruct v as [s | z | b]; simpl; run_unfold.
  - destruct (int_of_str s); eauto.
  - eauto.
  - eauto.
Qed.

(** [listen] with the three [os.environ.get] calls evaluated. *)
Lemma listen_unfold (app : App) (w : World) :
  listen app w =
    (port ← int_ (Py.environ_get (environ w) "APP_PORT" (VInt 6644));
     app_run app
       (Py.environ_get (environ w) "APP_HOST" (VStr "0.0.0.0"))
       port
       (Py.bool_ (Py.environ_get (environ w) "APP_DEBUG" (VBool false)))) w.
Proof.
  unfold listen, os_environ_get. run_unfold.
  destruct (int_keeps_world (Py.environ_get (environ w) "APP_PORT" (VInt 6644)) w)
    as [[z Hz] | [e He]]; rewrite ?Hz, ?He; reflexivity.
Qed.

Lemma telemetry_body_unset (w : World) :
  environ w !! "SENTRY_DSN" = None →
  telemetry_body w = Raised (KeyError "SENTRY_DSN") w.
Proof.
  intros H. unfold telemetry_body, os_environ_getitem, Py.environ_getitem.
  run_unfold. rewrite H. reflexivity.
Qed.

Lemma telemetry_body_set (w : World) (d : string) :
  environ w !! "SENTRY_DSN" = Some d →
  telemetry_body w = sentry_init_call {| dsn := d; traces_sample_rate := 1 |} w.
Proof.
  intros H. unfold telemetry_body, os_environ_getitem, Py.environ_getitem.
  run_unfold. rewrite H. reflexivity.
Qed.

(** The [try] statement neither touches the environment nor starts the
    server, whatever happens inside. *)
Lemma telemetry_frame (w : World) :
  ∃ w', telemetry w = Returned tt w'
        ∧ environ w' = environ w
        ∧ dotenv_file w' = dotenv_file w
        ∧ serving w' = serving w.
Proof.
  unfold telemetry, try_except.
  destruct (environ w !! "SENTRY_DSN") as [d|] eqn:E.
  - rewrite (telemetry_body_set _ _ E). unfold sentry_init_call.
    destruct (sentry_sdk_init _ _); run_unfold; eexists; split; try reflexivity; auto.
  - rewrite (telemetry_body_unset _ E). run_unfold. eauto.
Qed.

(** C1. Whatever the environment holds for [SENTRY_DSN] and whatever
    [sentry_sdk.init] does with it, the [try] statement of lines 8-13
    completes normally: when its body raises (the missing-key lookup
    included) the world after the statement is exactly the world at the
    point of the raise, so the handler logs nothing, re-raises nothing and
    makes no second call of [init]; at most one call is added. The start-up
    then goes on to build the application: [bootstrap] returns it. *)
Theorem telemetry_failure_never_stops_startup (name : string) (w : World) :
  (∃ w', telemetry w = Returned tt w'
         ∧ (∀ e w1, telemetry_body w = Raised e w1 → w' = w1)
         ∧ (length (sentry_calls w') ≤ S (length (sentry_calls w)))%nat)
  ∧ (∃ w2, (telemetry;; mret (create_app name)) w = Returned (create_app name) w2)
  ∧ (∃ w3, bootstrap name w = Returned (create_app name) w3).
Proof.
  split; [| split].
  - unfold telemetry, try_except.
    destruct (environ w !! "SENTRY_DSN") as [d|] eqn:E.
    + rewrite (telemetry_body_set _ _ E). unfold sentry_init_call.
      destruct (sentry_sdk_init _ _) as [e|]; run_unfold.
      * eexists. split; [reflexivity |]. split.
        -- intros e' w1 H. by inversion H.
        -- simpl. rewrite length_app. simpl. lia.
      * eexists. split; [reflexivity |]. split.
        -- intros e' w1 H. discriminate H.
        -- simpl. rewrite length_app. simpl. lia.
    + rewrite (telemetry_body_unset _ E). run_unfold.
      eexists. split; [reflexivity |]. split.
      * intros e' w1 H. by inversion H.
      * lia.
  - destruct (telemetry_frame w) as (w' & Hw' & _).
    exists w'. run_unfold. rewrite Hw'. reflexivity.
  - unfold bootstrap, load_dotenv. run_unfold.
    destruct (dotenv_file w) as [file|].
    + destruct (telemetry_frame (set_environ (environ w ∪ file) w)) as (w' & Hw' & _).
      exists w'. rewrite Hw'. reflexivity.
    + destruct (telemetry_frame w) as (w' & Hw' & _).
      exists w'. rewrite Hw'. reflexivity.
Qed.

(** C8. When [SENTRY_DSN] is set to [d], the [try] statement makes exactly
    one call [sentry_sdk.init(dsn=d, traces_sample_rate=1.0)], and when the
    SDK accepts the call the installed client has that DSN and rate one. *)
Theorem sentry_init_gets_dsn_and_full_sampling (w : World) (d : string) :
  environ w !! "SENTRY_DSN" = Some d →
  ∃ w', telemetry w = Returned tt w'
        ∧ sentry_calls w' = (sentry_calls w ++ [{| dsn := d; traces_sample_rate := 1 |}])%list
        ∧ (sentry_sdk_init {| dsn := d; traces_sample_rate := 1 |} (environ w) = None →
           sentry_client w' = Some {| dsn := d; traces_sample_rate := 1 |}).
Proof.
  intros E. unfold telemetry, try_except.
  rewrite (telemetry_body_set _ _ E). unfold sentry_init_call.
  destruct (sentry_sdk_init _ _) as [e|]; run_unfold.
  - eexists. split; [reflexivity |]. split; [reflexivity |]. intros H. discriminate H.
  - eexists. split; [reflexivity |]. split; reflexivity.
Qed.

(** C7. Loading the [.env] file never raises; every name bound in the
    process environment before the call is bound to the same value after
    it; and with no file present the call returns leaving the world as it
    was. *)
Theorem load_dotenv_keeps_existing_variables (w : World) :
  (∃ b w', load_dotenv w = Returned b w'
           ∧ ∀ k v, environ w !! k = Some v → environ w' !! k = Some v)
  ∧ (dotenv_file w = None → load_dotenv w = Returned false w).
Proof.
  unfold load_dotenv. split.
  - destruct (dotenv_file w) as [file|].
    + eexists _, _. split; [reflexivity |]. intros k v H. simpl.
      by apply lookup_union_Some_l.
    + eexists _, _. split; [reflexivity |]. auto.
  - intros ->. reflexivity.
Qed.


(** A returned [listen] has entered [app.run] with the debug flag that line
    31 computes. *)
Lemma listen_returned_debug (app : App) (w w' : World) :
  listen app w = Returned tt w' →
  run_debug <$> serving w'
  = Some (Py.bool_ (Py.environ_get (environ w) "APP_DEBUG" (VBool false))).
Proof.
  rewrite listen_unfold. run_unfold.
  destruct (int_keeps_world (Py.environ_get (environ w) "APP_PORT" (VInt 6644)) w)
    as [[z Hz] | [e He]]; rewrite ?Hz, ?He; [| intros Hr; discriminate Hr].
  unfold app_run. destruct (flask_run _ _); intros Hr; inversion Hr. reflexivity.
Qed.

(** C3 (amended). When [APP_DEBUG] is unset, or set to the empty string
    (the one string Python counts as false), the debug argument evaluates
    to [False]: line 31 is the call [app.run(host, port, False)] once the
    port has been converted, and in every world in which the listener has
    been started its debug flag is off. *)
Theorem debug_off_when_unset_or_empty (app : App) (w : World) :
  environ w !! "APP_DEBUG" = None ∨ environ w !! "APP_DEBUG" = Some "" →
  listen app w =
    (port ← int_ (Py.environ_get (environ w) "APP_PORT" (VInt 6644));
     app_run app (Py.environ_get (environ w) "APP_HOST" (VStr "0.0.0.0")) port false) w
  ∧ ∀ w', listen app w = Returned tt w' → run_debug <$> serving w' = Some false.
Proof.
  intros H.
  assert (Hd : Py.bool_ (Py.environ_get (environ w) "APP_DEBUG" (VBool false)) = false).
  { unfold Py.environ_get. destruct H as [-> | ->]; reflexivity. }
  split.
  - rewrite listen_unfold, Hd. reflexivity.
  - intros w' Hr. rewrite (listen_returned_debug _ _ _ Hr), Hd. reflexivity.
Qed.

(** C10. When [APP_DEBUG] is set to any non-empty string, ["false"] and
    ["0"] included, the debug argument evaluates to [True]: line 31 is the
    call [app.run(host, port, True)] once the port has been converted, and
    in every world in which the listener has been entered its debug flag is
    on. *)
Theorem debug_on_for_every_nonempty_string (app : App) (w : World) (s : string) :
  environ w !! "APP_DEBUG" = Some s →
  s ≠ "" →
  listen app w =
    (port ← int_ (Py.environ_get (environ w) "APP_PORT" (VInt 6644));
     app_run app (Py.environ_get (environ w) "APP_HOST" (VStr "0.0.0.0")) port true) w
  ∧ ∀ w', listen app w = Returned tt w' → run_debug <$> serving w' = Some true.
Proof.
  intros E Hs.
  assert (Hd : Py.bool_ (Py.environ_get (environ w) "APP_DEBUG" (VBool false)) = true).
  { unfold Py.environ_get. rewrite E. simpl.
    destruct (String.eqb_spec s ""); [contradiction | reflexivity]. }
  split.
  - rewrite listen_unfold, Hd. reflexivity.
  - intros w' Hr. rewrite (listen_returned_debug _ _ _ Hr), Hd. reflexivity.
Qed.



(** *** Routing *)

Lemma create_app_url_map (name : string) :
  ∃ static_rule root_rule,
    url_map (create_app name) = static_rule :: root_rule :: map (mount V2) v2_routes
    ∧ rule_endpoint static_rule = EpStatic
    ∧ rule_endpoint root_rule = EpRoot.
Proof. eexists _, _. split; [reflexivity |]. split; reflexivity. Qed.

Lemma create_app_hooks (name : string) (resp : Response) :
  process_response (create_app name) resp = cors_after_request resp.
Proof. reflexivity. Qed.

(** No rule mounted for version 2 fits a path below the prefix of version 1. *)
Lemma v2_rules_reject_v1_paths (routes : list VersionRoute) (req : Request) (rest : string) :
  path req = "/api/v1/" ++ rest →
  find (rule_accepts req) (map (mount V2) routes) = None
  ∧ existsb (λ r, rule_matches r (path req)) (map (mount V2) routes) = false.
Proof.
  intros Hp. induction routes as [| vr routes [IHf IHe]]; [by split |].
  simpl. unfold rule_accepts at 1. simpl. rewrite Hp. simpl.
  rewrite <- Hp. by split.
Qed.

(** C2. The view function [root] returns the pair of the literal mapping
    and 200 from every world and leaves the world as it was, so calling it
    again gives the same answer; and a [GET /] sent through the application
    the module builds is answered with status 200 and that mapping as body,
    again without any change of the world. *)
Theorem root_returns_the_literal_payload (name : string) (w : World) :
  root w =
    Returned (JDict [("service", JStr "wearables-gateway");
                     ("version", JStr "v2");
                     ("endpoints", JList [JStr "/api/v2/"])], 200) w
  ∧ (root;; root) w = root w
  ∧ ∃ hdrs,
      full_dispatch_request (create_app name) {| method := GET; path := "/" |} w =
        ({| status := 200;
            headers := hdrs;
            body := BJson (JDict [("service", JStr "wearables-gateway");
                                  ("version", JStr "v2");
                                  ("endpoints", JList [JStr "/api/v2/"])]) |}, w).
Proof.
  split; [reflexivity |]. split; [reflexivity |].
  eexists. reflexivity.
Qed.

(** Looking a path below [/api/v2/] up in the mounted rules is looking the
    rest of the path up in the routes as version 2 declares them. *)
Lemma find_mounted_v2_route (routes : list VersionRoute) (m : Method) (rest : string) :
  find (rule_accepts {| method := m; path := "/api/v2/" ++ rest |}) (map (mount V2) routes)
  = mount V2 <$> find (λ vr, vr_matches vr rest && bool_decide (m ∈ vr_methods vr)) routes.
Proof.
  induction routes as [| vr routes IH]; [reflexivity |].
  simpl. unfold rule_accepts at 1. simpl.
  change ("" +:+ rest) with rest.
  destruct (vr_matches vr rest && bool_decide (m ∈ vr_methods vr)); [reflexivity | exact IH].
Qed.

(** C5. The application the module builds holds no rule of version 1; a
    request for any path below [/api/v1/], with any method, is answered 404
    without running a view; on the paths below [/api/v2/] the lookup in the
    application's URL map is the lookup in the rules of version 2 alone;
    and a request below [/api/v2/] that a route of version 2 accepts runs
    the view of that route, whose response is what the client gets (after
    the after-request functions). *)
Theorem only_v2_is_mounted (name : string) :
  (∀ r n, r ∈ url_map (create_app name) → rule_endpoint r ≠ EpVersion V1 n)
  ∧ (∀ m rest w,
       url_match (url_map (create_app name)) {| method := m; path := "/api/v1/" ++ rest |} = NotFound
       ∧ ∃ resp,
           full_dispatch_request (create_app name) {| method := m; path := "/api/v1/" ++ rest |} w
           = (resp, w)
           ∧ status resp = 404)
  ∧ (∀ m rest,
       url_match (url_map (create_app name)) {| method := m; path := "/api/v2/" ++ rest |} =
       url_match (map (mount V2) v2_routes) {| method := m; path := "/api/v2/" ++ rest |})
  ∧ (∀ m rest vr w,
       find (λ vr, vr_matches vr rest && bool_decide (m ∈ vr_methods vr)) v2_routes = Some vr →
       vr_automatic_options vr && bool_decide (m = OPTIONS) = false →
       dispatch_request (create_app name) {| method := m; path := "/api/v2/" ++ rest |} w
       = vr_view vr {| method := m; path := "/api/v2/" ++ rest |} w
       ∧ ∀ resp w',
           vr_view vr {| method := m; path := "/api/v2/" ++ rest |} w = Returned resp w' →
           full_dispatch_request (create_app name) {| method := m; path := "/api/v2/" ++ rest |} w
           = (process_response (create_app name) resp, w')).
Proof.
  split; [| split; [| split]].
  - intros r n Hr.
    destruct (create_app_url_map name) as (st & rt & E & Hst & Hrt).
    rewrite E in Hr.
    apply elem_of_cons in Hr as [-> | Hr]; [by rewrite Hst |].
    apply elem_of_cons in Hr as [-> | Hr]; [by rewrite Hrt |].
    apply list_elem_of_fmap in Hr as (vr & -> & _). discriminate.
  - intros m rest w.
    assert (Hm : url_match (url_map (create_app name))
                   {| method := m; path := "/api/v1/" ++ rest |} = NotFound).
    { destruct (v2_rules_reject_v1_paths v2_routes
                  {| method := m; path := "/api/v1/" ++ rest |} rest eq_refl) as [Hf He].
      unfold url_match. simpl in *. rewrite Hf, He. reflexivity. }
    split; [exact Hm |].
    unfold full_dispatch_request, dispatch_request. rewrite Hm.
    eexists. split; reflexivity.
  - intros m rest. reflexivity.
  - intros m rest vr w Hfind Hopt.
    assert (Hd : dispatch_request (create_app name)
                   {| method := m; path := "/api/v2/" ++ rest |} w
                 = vr_view vr {| method := m; path := "/api/v2/" ++ rest |} w).
    { unfold dispatch_request.
      change (url_match (url_map (create_app name)) {| method := m; path := "/api/v2/" ++ rest |})
        with (url_match (map (mount V2) v2_routes) {| method := m; path := "/api/v2/" ++ rest |}).
      unfold url_match. rewrite find_mounted_v2_route, Hfind. simpl.
      rewrite Hopt. reflexivity. }
    split; [exact Hd |].
    intros resp w' Hv. unfold full_dispatch_request. rewrite Hd, Hv. reflexivity.
Qed.

(** C6 (amended). Every response the application itself makes carries the
    header [Access-Control-Allow-Origin: *]: for every request and from
    every world, whenever the request is answered without an exception
    leaving a view (a view's answer, a 404, a 405, the automatic [OPTIONS]
    answer), and also after a view has raised as long as exceptions are not
    propagated, that is, as long as the debug flag is off. There is no
    exception per route. *)
Theorem application_responses_allow_any_origin (name : string) (req : Request) (w : World) :
  (∃ resp w', dispatch_request (create_app name) req w = Returned resp w')
  ∨ propagate_exceptions w = false →
  ("Access-Control-Allow-Origin", "*")
    ∈ headers (full_dispatch_request (create_app name) req w).1.
Proof.
  intros H. unfold full_dispatch_request.
  destruct (dispatch_request (create_app name) req w) as [resp w' | e w'].
  - cbn [fst]. rewrite create_app_hooks. apply list_elem_of_here.
  - destruct H as [(resp & w1 & H) | ->]; [discriminate H |].
    cbn [fst]. rewrite create_app_hooks. apply list_elem_of_here.
Qed.

(** *** The module as a whole *)

(** Lines 1-28 always hand over the application; they keep every variable
    the process started with and do not start the server. *)
Lemma bootstrap_frame (name : string) (w : World) :
  ∃ w', bootstrap name w = Returned (create_app name) w'
        ∧ serving w' = serving w
        ∧ ∀ k v, environ w !! k = Some v → environ w' !! k = Some v.
Proof.
  unfold bootstrap, load_dotenv. run_unfold.
  destruct (dotenv_file w) as [file|].
  - destruct (telemetry_frame (set_environ (environ w ∪ file) w)) as (w' & Hw' & He & _ & Hs).
    exists w'. rewrite Hw'. split; [reflexivity |]. split; [exact Hs |].
    intros k v H. rewrite He. simpl. by apply lookup_union_Some_l.
  - destruct (telemetry_frame w) as (w' & Hw' & He & _ & Hs).
    exists w'. rewrite Hw'. split; [reflexivity |]. split; [exact Hs |].
    intros k v H. by rewrite He.
Qed.

(** Imported under another name (by a WSGI server, say), the module builds
    the application and starts no listener. *)
Lemma main_imported (name : string) (w : World) :
  String.eqb name "__main__" = false →
  ∃ w', main name w = Returned (create_app name) w' ∧ serving w' = serving w.
Proof.
  intros Hn. destruct (bootstrap_frame name w) as (w' & Hb & Hs & _).
  exists w'. unfold main. run_unfold. rewrite Hb, Hn. by split.
Qed.

(** Run as a script with an [APP_PORT] that [int] rejects, the module ends
    with [ValueError] and has not started serving; a [.env] file cannot
    repair the value, since it does not override the process environment. *)
Lemma main_script_unparseable_port (w : World) (s : string) :
  environ w !! "APP_PORT" = Some s →
  int_of_str s = None →
  ∃ w', main "__main__" w = Raised (ValueError s) w' ∧ serving w' = serving w.
Proof.
  intros E Hn. destruct (bootstrap_frame "__main__" w) as (w' & Hb & Hs & Henv).
  exists w'. split; [| exact Hs].
  unfold main. run_unfold. rewrite Hb. simpl.
  rewrite listen_unfold, (environ_get_set _ _ _ _ (Henv _ _ E)).
  simpl. run_unfold. rewrite Hn. reflexivity.
Qed.

(** *** Further properties of the telemetry block, the listener line and
    the module guard *)

(** The integer [int] yields, or the exception it raises, does not depend
    on the world it is evaluated in. *)
Lemma int_same_in_every_world (v : value) (w1 w2 : World) :
  match int_ v w1, int_ v w2 with
  | Returned z1 _, Returned z2 _ => z1 = z2
  | Raised e1 _, Raised e2 _ => e1 = e2
  | _, _ => False
  end.
Proof.
  destruct v as [s | z | b]; simpl; run_unfold; try reflexivity.
  destruct (int_of_str s); reflexivity.
Qed.

(** X1. With [SENTRY_DSN] unset, lines 8-13 do nothing at all: the lookup
    raises before [sentry_sdk.init] is entered, so the SDK is not called,
    no client is installed, and the statement returns in the world it
    started from, whatever the SDK would have done. *)
Theorem telemetry_skipped_without_dsn (w : World) :
  environ w !! "SENTRY_DSN" = None →
  telemetry w = Returned tt w.
Proof.
  intros E. unfold telemetry, try_except.
  rewrite (telemetry_body_unset _ E). reflexivity.
Qed.

(** X2. Line 31 ends with an exception in exactly two ways. Either
    [APP_PORT] is set to a string that [int] rejects: the exception is the
    [ValueError] for that string, it is raised while the arguments are
    evaluated and the world is untouched. Or all three arguments have been
    evaluated and [app.run], entered with them, raises. Reading [APP_HOST]
    and [APP_DEBUG] never raises. *)
Theorem listen_raises_from_int_or_app_run (app : App) (w : World) (e : exn) (w' : World) :
  listen app w = Raised e w' ↔
    (∃ s, environ w !! "APP_PORT" = Some s ∧ int_of_str s = None
          ∧ e = ValueError s ∧ w' = w)
    ∨ (∃ port,
         int_ (Py.environ_get (environ w) "APP_PORT" (VInt 6644)) w = Returned port w
         ∧ flask_run
             {| run_host := Py.environ_get (environ w) "APP_HOST" (VStr "0.0.0.0");
                run_port := port;
                run_debug := Py.bool_ (Py.environ_get (environ w) "APP_DEBUG" (VBool false)) |}
             (environ w) = Some e
         ∧ w' = start_serving
                  {| run_host := Py.environ_get (environ w) "APP_HOST" (VStr "0.0.0.0");
                     run_port := port;
                     run_debug := Py.bool_ (Py.environ_get (environ w) "APP_DEBUG" (VBool false)) |}
                  w).
Proof.
  rewrite listen_unfold.
  destruct (environ w !! "APP_PORT") as [s|] eqn:E;
    [rewrite (environ_get_set _ _ _ _ E) | rewrite (environ_get_unset _ _ _ E)];
    simpl; run_unfold.
  - destruct (int_of_str s) as [n|] eqn:Hn.
    + unfold app_run. destruct (flask_run _ _) as [e0|] eqn:Hf.
      * split.
        -- intros H. inversion H; subst. right. exists n. by repeat split.
        -- intros [(s' & Hs' & Hn' & _) | (port & Hp & Hf' & ->)].
           ++ inversion Hs'; subst s'. congruence.
           ++ inversion Hp; subst port. rewrite Hf in Hf'. by inversion Hf'.
      * split; [intros H; discriminate H |].
        intros [(s' & Hs' & Hn' & _) | (port & Hp & Hf' & _)].
        -- inversion Hs'; subst s'. congruence.
        -- inversion Hp; subst port. congruence.
    + split.
      * intros H. inversion H; subst. left. exists s. by repeat split.
      * intros [(s' & Hs' & _ & -> & ->) | (port & Hp & _)].
        -- by inversion Hs'.
        -- discriminate Hp.
  - unfold app_run. destruct (flask_run _ _) as [e0|] eqn:Hf.
    + split.
      * intros H. inversion H; subst. right. exists 6644. by repeat split.
      * intros [(s' & Hs' & _) | (port & Hp & Hf' & ->)]; [discriminate Hs' |].
        inversion Hp; subst port. rewrite Hf in Hf'. by inversion Hf'.
    + split; [intros H; discriminate H |].
      intros [(s' & Hs' & _) | (port & Hp & Hf' & _)]; [discriminate Hs' |].
      inversion Hp; subst port. congruence.
Qed.

(** X3. The outcome of the telemetry block has no influence on the
    listener: the block always hands over to the rest of the module, and
    line 31 run after it raises the same exception, or enters [app.run]
    with the same arguments, as it would have before it. *)
Theorem listener_ignores_telemetry_outcome (app : App) (w : World) :
  ∃ w1, telemetry w = Returned tt w1
        ∧ match listen app w, listen app w1 with
          | Returned _ a, Returned _ b => serving a = serving b ∧ is_Some (serving a)
          | Raised e _, Raised e' _ => e = e'
          | _, _ => False
          end.
Proof.
  destruct (telemetry_frame w) as (w1 & Hrun & Henv & _ & _).
  exists w1. split; [exact Hrun |].
  rewrite !listen_unfold, Henv. run_unfold.
  pose proof (int_same_in_every_world
                (Py.environ_get (environ w) "APP_PORT" (VInt 6644)) w w1) as H.
  destruct (int_keeps_world (Py.environ_get (environ w) "APP_PORT" (VInt 6644)) w)
    as [[z Hz] | [e He]];
    destruct (int_keeps_world (Py.environ_get (environ w) "APP_PORT" (VInt 6644)) w1)
      as [[z' Hz'] | [e' He']];
    rewrite ?Hz, ?He, ?Hz', ?He' in H |- *; try contradiction; subst; [| reflexivity].
  unfold app_run. rewrite Henv. destruct (flask_run _ _); simpl; eauto.
Qed.

(** X4. Under any module name other than ["__main__"] (an import by a WSGI
    server or a test), the module is lines 1-28 and nothing more: line 31 is
    not run, [APP_PORT] is not even converted, no listener is started and
    the application is handed over. *)
Theorem imported_module_starts_no_listener (name : string) (w : World) :
  String.eqb name "__main__" = false →
  main name w = bootstrap name w
  ∧ ∃ w', main name w = Returned (create_app name) w' ∧ serving w' = serving w.
Proof.
  intros Hn. split; [| by apply main_imported].
  unfold main. run_unfold. rewrite Hn.
  destruct (bootstrap name w); reflexivity.
Qed.

(** X5. Run as a script, the port of the listener is read from the process
    environment when [APP_PORT] is set there, and from the [.env] file when
    it is set only there: line 6 has merged the file before line 31 reads
    the environment, and a value of the process is never replaced by the
    file's. The module reaches [app.run] with that port; it returns the
    application when [app.run] accepts its arguments and ends with the
    exception of [app.run] otherwise, the port recorded being the same.
    ([load_dotenv] is the loader described in the specification.) *)
Theorem script_port_from_environment_then_file (w : World) (s : string) (n : Z) :
  int_of_str s = Some n →
  environ w !! "APP_PORT" = Some s
  ∨ (environ w !! "APP_PORT" = None
     ∧ ∃ file, dotenv_file w = Some file ∧ file !! "APP_PORT" = Some s) →
  ∃ w', run_port <$> serving w' = Some n
        ∧ ∃ args, serving w' = Some args
                  ∧ main "__main__" w =
                      match flask_run args (environ w') with
                      | None => Returned (create_app "__main__") w'
                      | Some e => Raised e w'
                      end.
Proof.
  intros Hn Hsrc.
  assert (Hload : ∃ b w0, load_dotenv w = Returned b w0
                          ∧ environ w0 !! "APP_PORT" = Some s).
  { unfold load_dotenv. destruct Hsrc as [E | (E & file & Hf & Hs)].
    - destruct (dotenv_file w) as [file|]; eexists _, _; (split; [reflexivity |]).
      + simpl. by apply lookup_union_Some_l.
      + exact E.
    - rewrite Hf. eexists _, _. split; [reflexivity |].
      simpl. rewrite lookup_union_r; [exact Hs | exact E]. }
  destruct Hload as (b & w0 & Hl & E0).
  destruct (telemetry_frame w0) as (w1 & Ht & Henv & _ & _).
  unfold main, bootstrap. run_unfold. rewrite Hl, Ht. simpl.
  rewrite listen_unfold. rewrite Henv, (environ_get_set _ _ _ _ E0).
  simpl. run_unfold. rewrite Hn. unfold app_run.
  set (args := {| run_host := Py.environ_get (environ w0) "APP_HOST" (VStr "0.0.0.0");
                  run_port := n;
                  run_debug := Py.bool_ (Py.environ_get (environ w0) "APP_DEBUG" (VBool false)) |}).
  exists (start_serving args w1). split; [reflexivity |].
  exists args. split; [reflexivity |].
  simpl. destruct (flask_run args (environ w1)); reflexivity.
Qed.

End Main.

(** ** The model run on sample inputs *)

Example int_of_ascii_accepts :
  (Py.int_of_ascii "8080", Py.int_of_ascii " 80 ", Py.int_of_ascii "+443",
   Py.int_of_ascii "-1", Py.int_of_ascii "007", Py.int_of_ascii "1_000")
  = (Some 8080, Some 80, Some 443, Some (-1), Some 7, Some 1000).
Proof. reflexivity. Qed.

Example int_of_ascii_rejects :
  (Py.int_of_ascii "", Py.int_of_ascii "http", Py.int_of_ascii "80.0",
   Py.int_of_ascii "0x50", Py.int_of_ascii "1__0", Py.int_of_ascii "_1",
   Py.int_of_ascii "1_", Py.int_of_ascii "- 1", Py.int_of_ascii "8 0")
  = (None, None, None, None, None, None, None, None, None).
Proof. reflexivity. Qed.

(** The three environment states of the telemetry block. *)
Example telemetry_dsn_absent :
  telemetry_body Sample.sentry_sdk_init Sample.bare
  = Raised (KeyError "SENTRY_DSN") Sample.bare
  ∧ telemetry Sample.sentry_sdk_init Sample.bare = Returned tt Sample.bare.
Proof. split; reflexivity. Qed.

Example telemetry_dsn_invalid :
  let opts := {| dsn := "not a dsn"; traces_sample_rate := 1 |} in
  telemetry_body Sample.sentry_sdk_init Sample.with_bad_dsn
  = Raised (Other "BadDsn") (log_sentry_call opts Sample.with_bad_dsn)
  ∧ telemetry Sample.sentry_sdk_init Sample.with_bad_dsn
    = Returned tt (log_sentry_call opts Sample.with_bad_dsn).
Proof. split; reflexivity. Qed.

Example telemetry_dsn_valid :
  let opts := {| dsn := Sample.good_dsn; traces_sample_rate := 1 |} in
  telemetry Sample.sentry_sdk_init Sample.with_dsn
  = Returned tt (install_sentry_client opts (log_sentry_call opts Sample.with_dsn)).
Proof. reflexivity. Qed.

Lemma sentry_init_gets_dsn_and_full_sampling_witness :
  let opts := {| dsn := Sample.good_dsn; traces_sample_rate := 1 |} in
  environ Sample.with_dsn !! "SENTRY_DSN" = Some Sample.good_dsn
  ∧ ∃ w', telemetry Sample.sentry_sdk_init Sample.with_dsn = Returned tt w'
          ∧ sentry_calls w' = [opts]
          ∧ sentry_client w' = Some opts.
Proof.
  assert (Hdsn : environ Sample.with_dsn !! "SENTRY_DSN" = Some Sample.good_dsn)
    by (vm_compute; reflexivity).
  split; [exact Hdsn |].
  destruct (sentry_init_gets_dsn_and_full_sampling Sample.sentry_sdk_init
              Sample.with_dsn Sample.good_dsn Hdsn) as (w' & Hrun & Hcalls & Hclient).
  exists w'. split; [exact Hrun |]. split; [exact Hcalls |].
  apply Hclient. reflexivity.
Defined.

Lemma load_dotenv_keeps_existing_variables_witness :
  (∃ b w', load_dotenv Sample.port_9000_with_file = Returned b w'
           ∧ environ w' !! "APP_PORT" = Some "9000")
  ∧ load_dotenv Sample.port_9000 = Returned false Sample.port_9000.
Proof.
  split.
  - destruct (load_dotenv_keeps_existing_variables Sample.port_9000_with_file)
      as [(b & w' & Hrun & Hkeep) _].
    exists b, w'. split; [exact Hrun |]. apply Hkeep. vm_compute. reflexivity.
  - apply (load_dotenv_keeps_existing_variables Sample.port_9000). reflexivity.
Defined.

(** The file supplies what the process environment lacks. *)
Example load_dotenv_adds_missing_variables :
  ∃ w', load_dotenv Sample.port_9000_with_file = Returned true w'
        ∧ environ w' !! "APP_HOST" = Some "127.0.0.1"
        ∧ environ w' !! "APP_PORT" = Some "9000".
Proof. eexists. split; [reflexivity |]. split; vm_compute; reflexivity. Qed.

Lemma debug_off_when_unset_or_empty_witness :
  (environ Sample.bare !! "APP_DEBUG" = None
   ∧ listen Py.int_of_ascii Sample.flask_run Sample.no_app Sample.bare
     = Returned tt (start_serving
         {| run_host := VStr "0.0.0.0"; run_port := 6644; run_debug := false |}
         Sample.bare))
  ∧ (environ Sample.debug_empty !! "APP_DEBUG" = Some ""
     ∧ listen Py.int_of_ascii Sample.flask_run Sample.no_app Sample.debug_empty
       = Returned tt (start_serving
           {| run_host := VStr "0.0.0.0"; run_port := 6644; run_debug := false |}
           Sample.debug_empty)).
Proof.
  assert (Hunset : environ Sample.bare !! "APP_DEBUG" = None)
    by (vm_compute; reflexivity).
  assert (Hempty : environ Sample.debug_empty !! "APP_DEBUG" = Some "")
    by (vm_compute; reflexivity).
  split.
  - split; [exact Hunset |].
    destruct (debug_off_when_unset_or_empty Py.int_of_ascii Sample.flask_run Sample.no_app
                Sample.bare (or_introl Hunset)) as [Hrun _].
    rewrite Hrun. vm_compute. reflexivity.
  - split; [exact Hempty |].
    destruct (debug_off_when_unset_or_empty Py.int_of_ascii Sample.flask_run Sample.no_app
                Sample.debug_empty (or_intror Hempty)) as [Hrun _].
    rewrite Hrun. vm_compute. reflexivity.
Defined.

(** The value [false], which the specification gives as the default of the
    flag, does not switch it off when it comes from the environment: the
    string is not empty, so the listener starts with the debug flag on. *)
Lemma debug_false_string_starts_debug_on :
  environ Sample.debug_false !! "APP_DEBUG" = Some "false"
  ∧ ∃ w', listen Py.int_of_ascii Sample.flask_run Sample.no_app Sample.debug_false
          = Returned tt w'
          ∧ run_debug <$> serving w' = Some true
          ∧ run_debug <$> serving w' ≠ Some false.
Proof.
  split; [vm_compute; reflexivity |].
  eexists. split; [vm_compute; reflexivity |].
  split; [reflexivity | discriminate].
Qed.

Lemma debug_on_for_every_nonempty_string_witness :
  listen Py.int_of_ascii Sample.flask_run Sample.no_app Sample.debug_false
  = Returned tt (start_serving
      {| run_host := VStr "0.0.0.0"; run_port := 6644; run_debug := true |}
      Sample.debug_false)
  ∧ listen Py.int_of_ascii Sample.flask_run Sample.no_app Sample.debug_zero
    = Returned tt (start_serving
        {| run_host := VStr "0.0.0.0"; run_port := 6644; run_debug := true |}
        Sample.debug_zero).
Proof.
  assert (Hfalse : environ Sample.debug_false !! "APP_DEBUG" = Some "false")
    by (vm_compute; reflexivity).
  assert (Hzero : environ Sample.debug_zero !! "APP_DEBUG" = Some "0")
    by (vm_compute; reflexivity).
  split.
  - destruct (debug_on_for_every_nonempty_string Py.int_of_ascii Sample.flask_run Sample.no_app
                Sample.debug_false "false" Hfalse) as [Hrun _]; [discriminate |].
    rewrite Hrun. vm_compute. reflexivity.
  - destruct (debug_on_for_every_nonempty_string Py.int_of_ascii Sample.flask_run Sample.no_app
                Sample.debug_zero "0" Hzero) as [Hrun _]; [discriminate |].
    rewrite Hrun. vm_compute. reflexivity.
Defined.




(** The empty string is rejected by [int] as well: a set but empty
    [APP_PORT] does not fall back to 6644. *)
Example empty_port_raises :
  listen Py.int_of_ascii Sample.flask_run Sample.no_app Sample.port_empty
  = Raised (ValueError "") Sample.port_empty.
Proof. vm_compute. reflexivity. Qed.

(** The sample application answering requests. *)
Example get_root_on_sample_app :
  full_dispatch_request Sample.flask_default_debug (create_app Sample.send_static_file Sample.v2_routes "__main__")
    {| method := GET; path := "/" |} Sample.bare
  = ({| status := 200;
        headers := [("Access-Control-Allow-Origin", "*"); ("Content-Type", "application/json")];
        body := BJson (JDict [("service", JStr "wearables-gateway");
                              ("version", JStr "v2");
                              ("endpoints", JList [JStr "/api/v2/"])]) |}, Sample.bare).
Proof. reflexivity. Qed.

Example get_v2_on_sample_app :
  full_dispatch_request Sample.flask_default_debug (create_app Sample.send_static_file Sample.v2_routes "__main__")
    {| method := GET; path := "/api/v2/heart-rate" |} Sample.bare
  = ({| status := 200;
        headers := [("Access-Control-Allow-Origin", "*"); ("Content-Type", "application/json")];
        body := BJson (JDict [("bpm", JStr "72")]) |}, Sample.bare).
Proof. reflexivity. Qed.

Example get_v1_on_sample_app :
  full_dispatch_request Sample.flask_default_debug (create_app Sample.send_static_file Sample.v2_routes "__main__")
    {| method := GET; path := "/api/v1/legacy" |} Sample.bare
  = ({| status := 404;
        headers := [("Access-Control-Allow-Origin", "*"); ("Content-Type", "text/html; charset=utf-8")];
        body := BErrorPage 404 "Not Found" |}, Sample.bare).
Proof. reflexivity. Qed.

(** Had the two commented lines been active, the same request would have
    reached the view of version 1: the 404 comes from not mounting it. *)
Example get_v1_if_it_were_mounted :
  let app := init_app V1 Sample.v1_routes
               (create_app Sample.send_static_file Sample.v2_routes "__main__") in
  (full_dispatch_request Sample.flask_default_debug app {| method := GET; path := "/api/v1/legacy" |} Sample.bare).1.(status) = 200.
Proof. reflexivity. Qed.

Example post_root_on_sample_app :
  (full_dispatch_request Sample.flask_default_debug (create_app Sample.send_static_file Sample.v2_routes "__main__")
     {| method := POST; path := "/" |} Sample.bare).1.(status) = 405.
Proof. reflexivity. Qed.

(** The script from start to listener; the debug flag comes from the file. *)
Example main_as_script :
  ∃ w', main Py.int_of_ascii Sample.sentry_sdk_init Sample.flask_run Sample.send_static_file Sample.v2_routes
          "__main__" Sample.port_8080_debug_in_file
        = Returned (create_app Sample.send_static_file Sample.v2_routes "__main__") w'
        ∧ serving w' = Some {| run_host := VStr "0.0.0.0"; run_port := 8080; run_debug := true |}
        ∧ sentry_client w' = None.
Proof. eexists. split; [vm_compute; reflexivity |]. split; reflexivity. Qed.

(** Witnesses of the further properties. *)

Lemma telemetry_skipped_without_dsn_witness :
  environ Sample.bare !! "SENTRY_DSN" = None
  ∧ telemetry Sample.sentry_sdk_init Sample.bare = Returned tt Sample.bare.
Proof.
  assert (Hunset : environ Sample.bare !! "SENTRY_DSN" = None)
    by (vm_compute; reflexivity).
  split; [exact Hunset |].
  exact (telemetry_skipped_without_dsn Sample.sentry_sdk_init Sample.bare Hunset).
Defined.

Lemma listen_raises_from_int_or_app_run_witness :
  listen Py.int_of_ascii Sample.flask_run Sample.no_app Sample.port_http
  = Raised (ValueError "http") Sample.port_http
  ∧ listen Py.int_of_ascii Sample.flask_run Sample.no_app Sample.port_minus_one
    = Raised (Other "OverflowError")
        (start_serving
           {| run_host := VStr "0.0.0.0"; run_port := -1; run_debug := false |}
           Sample.port_minus_one).
Proof.
  split.
  - apply (listen_raises_from_int_or_app_run Py.int_of_ascii Sample.flask_run
             Sample.no_app Sample.port_http).
    left. exists "http". split; [vm_compute; reflexivity |].
    split; [reflexivity |]. split; reflexivity.
  - apply (listen_raises_from_int_or_app_run Py.int_of_ascii Sample.flask_run
             Sample.no_app Sample.port_minus_one).
    right. exists (-1). split; [vm_compute; reflexivity |].
    split; vm_compute; reflexivity.
Defined.

Lemma imported_module_starts_no_listener_witness :
  String.eqb "wsgi" "__main__" = false
  ∧ ∃ w', main Py.int_of_ascii Sample.sentry_sdk_init Sample.flask_run Sample.send_static_file
            Sample.v2_routes "wsgi" Sample.port_http
          = Returned (create_app Sample.send_static_file Sample.v2_routes "wsgi") w'
          ∧ serving w' = None.
Proof.
  split; [reflexivity |].
  destruct (imported_module_starts_no_listener Py.int_of_ascii Sample.sentry_sdk_init
              Sample.flask_run Sample.send_static_file Sample.v2_routes "wsgi" Sample.port_http eq_refl)
    as (_ & w' & Hrun & Hserving).
  exists w'. split; [exact Hrun | exact Hserving].
Defined.

Lemma script_port_from_environment_then_file_witness :
  (∃ w', main Py.int_of_ascii Sample.sentry_sdk_init Sample.flask_run Sample.send_static_file
           Sample.v2_routes "__main__" Sample.port_in_file_only
         = Returned (create_app Sample.send_static_file Sample.v2_routes "__main__") w'
         ∧ run_port <$> serving w' = Some 7000)
  ∧ (∃ w', main Py.int_of_ascii Sample.sentry_sdk_init Sample.flask_run Sample.send_static_file
             Sample.v2_routes "__main__" Sample.port_9000_with_file
           = Returned (create_app Sample.send_static_file Sample.v2_routes "__main__") w'
           ∧ run_port <$> serving w' = Some 9000).
Proof.
  split.
  - destruct (script_port_from_environment_then_file Py.int_of_ascii Sample.sentry_sdk_init
                Sample.flask_run Sample.send_static_file Sample.v2_routes
                Sample.port_in_file_only "7000" 7000)
      as (w' & Hport & args & Hargs & Hrun).
    + reflexivity.
    + right. split; [vm_compute; reflexivity |].
      exists Sample.port_file. split; [reflexivity | vm_compute; reflexivity].
    + exists w'. split; [| exact Hport].
      rewrite Hrun. rewrite Hargs in Hport. injection Hport as Hport.
      unfold Sample.flask_run. rewrite Hport. reflexivity.
  - destruct (script_port_from_environment_then_file Py.int_of_ascii Sample.sentry_sdk_init
                Sample.flask_run Sample.send_static_file Sample.v2_routes
                Sample.port_9000_with_file "9000" 9000)
      as (w' & Hport & args & Hargs & Hrun).
    + reflexivity.
    + left. vm_compute. reflexivity.
    + exists w'. split; [| exact Hport].
      rewrite Hrun. rewrite Hargs in Hport. injection Hport as Hport.
      unfold Sample.flask_run. rewrite Hport. reflexivity.
Defined.

(** A request below [/api/v2/] that version 2 accepts runs its view. *)
Lemma only_v2_is_mounted_witness :
  full_dispatch_request Sample.flask_default_debug
    (create_app Sample.send_static_file Sample.v2_routes "__main__")
    {| method := GET; path := "/api/v2/heart-rate" |} Sample.bare
  = (cors_after_request (make_response (JDict [("bpm", JStr "72")], 200)), Sample.bare).
Proof.
  destruct (only_v2_is_mounted Sample.flask_default_debug Sample.send_static_file
              Sample.v2_routes "__main__") as (_ & _ & _ & Hview).
  destruct (Hview GET "heart-rate"
              {| vr_name := "heart_rate";
                 vr_matches := String.eqb "heart-rate";
                 vr_methods := [GET; HEAD; OPTIONS];
                 vr_automatic_options := true;
                 vr_view := Sample.heart_rate |}
              Sample.bare eq_refl eq_refl) as [_ Hresp].
  apply (Hresp (make_response (JDict [("bpm", JStr "72")], 200)) Sample.bare).
  reflexivity.
Defined.

(** With the debug flag on, a 404 still carries the header; with the debug
    flag off, so does the 500 made for a view that raised. *)
Lemma application_responses_allow_any_origin_witness :
  ("Access-Control-Allow-Origin", "*")
    ∈ headers (full_dispatch_request Sample.flask_default_debug
                 (create_app Sample.send_static_file Sample.v2_routes "__main__")
                 {| method := GET; path := "/nowhere" |}
                 (Sample.serving_with_debug true)).1
  ∧ ("Access-Control-Allow-Origin", "*")
      ∈ headers (full_dispatch_request Sample.flask_default_debug
                   (create_app Sample.send_static_file Sample.v2_routes "__main__")
                   {| method := GET; path := "/api/v2/broken" |}
                   (Sample.serving_with_debug false)).1.
Proof.
  split.
  - apply (application_responses_allow_any_origin Sample.flask_default_debug
             Sample.send_static_file Sample.v2_routes "__main__"
             {| method := GET; path := "/nowhere" |} (Sample.serving_with_debug true)).
    left. eexists _, _. reflexivity.
  - apply (application_responses_allow_any_origin Sample.flask_default_debug
             Sample.send_static_file Sample.v2_routes "__main__"
             {| method := GET; path := "/api/v2/broken" |} (Sample.serving_with_debug false)).
    right. reflexivity.
Defined.

(** Not every answer a client gets carries the header: once the script has
    started the listener with a non-empty [APP_DEBUG], the exception of a
    view is re-raised to the server, and the page the client gets has no
    [Access-Control-Allow-Origin] header. *)
Lemma raising_view_in_debug_mode_has_no_cors_header :
  let app := create_app Sample.send_static_file Sample.v2_routes "__main__" in
  let w' := start_serving
              {| run_host := VStr "0.0.0.0"; run_port := 6644; run_debug := true |}
              Sample.debug_one in
  main Py.int_of_ascii Sample.sentry_sdk_init Sample.flask_run Sample.send_static_file
    Sample.v2_routes "__main__" Sample.debug_one
  = Returned app w'
  ∧ full_dispatch_request Sample.flask_default_debug app
      {| method := GET; path := "/api/v2/broken" |} w'
    = ({| status := 500;
          headers := [("Content-Type", "text/html; charset=utf-8")];
          body := BTraceback (Other "ZeroDivisionError") |}, w')
  ∧ ("Access-Control-Allow-Origin", "*")
      ∉ headers (full_dispatch_request Sample.flask_default_debug app
                   {| method := GET; path := "/api/v2/broken" |} w').1.
Proof.
  split; [vm_compute; reflexivity |].
  split; [reflexivity |].
  intros H. vm_compute in H.
  apply list_elem_of_singleton in H. discriminate H.
Qed.
